(** * zion: the cleanup script [cleanup.py]

    The script walks a fixed list of five file paths, deletes each one that
    exists and reports the outcome, then deletes one directory tree if it
    exists, and finally prints a completion line.  Every delete sits in a
    [try]/[except Exception] block whose handler prints the failure.

    The development has these parts:
    - [Py]: the fragment of Python the script uses, as a state-and-exception
      monad over a world made of a filesystem and the lines printed so far;
    - [Cleanup]: the script itself, statement by statement, over an abstract
      host filesystem (the [os] and [shutil] calls are the host's), and the
      vocabulary of its specification;
    - [MemFS]: one concrete host, a finite map from paths to entries;
    - [Correct]: what a run does, for every host, and for every host that
      obeys the laws of deletion;
    - [MemFSLaws], [Runs]: the host in memory obeys the laws, and the script
      run on it;
    - [Trace], [Beyond], [BeyondRuns]: a host that records the delete calls
      made on it, and what a run does in terms of those calls.

    Output is modelled as the list of [print] calls, and [print] as a call
    that succeeds; a call is one line as long as the text of a failure has
    no line break, which is the case for the [OSError] texts the [os] module
    builds.  Paths are compared as strings.  Asynchronous interruption
    (signals) and other processes acting on the same paths are outside the
    model. *)

From stdpp Require Import gmap strings list fin_maps.

(* ===================================================================== *)
(** ** The Python fragment *)
(* ===================================================================== *)

Module Py.

(** The exception classes that matter to [except Exception]: [OSError],
    which derives from [Exception] and is what [os.remove] and
    [shutil.rmtree] raise, and the two that derive from [BaseException]
    only. *)
Inductive exc_class : Type :=
| OSError
| KeyboardInterrupt
| SystemExit.

(** [issubclass(c, Exception)] *)
Definition is_Exception (c : exc_class) : bool :=
  match c with
  | OSError => true
  | KeyboardInterrupt | SystemExit => false
  end.

(** An exception object: its class and what [str(e)] gives. *)
Record exception : Type := { exc_cls : exc_class; exc_str : string }.

(** The way a statement ends. *)
Inductive result (A : Type) : Type :=
| Returned (a : A)
| Raised (e : exception).
Arguments Returned {A} a.
Arguments Raised {A} e.

(** The host filesystem, as the script sees it: [os.path.exists],
    [os.remove] and [shutil.rmtree].  A delete call answers [None] when it
    returns and [Some d] when it raises an [OSError] whose text is [d]; it
    hands back the filesystem it leaves behind in both cases (a failing
    [rmtree] may have deleted part of the tree).  [host_node] is the
    directory entry stored at a path, without following links; the script
    never calls it, it is what the frame property observes. *)
Class HostFS (FS Node : Type) : Type := {
  host_exists : string -> FS -> bool;
  host_remove : string -> FS -> option string * FS;
  host_rmtree : string -> FS -> option string * FS;
  host_node   : string -> FS -> option Node
}.

Section Monad.
Context {FS Node : Type} `{!HostFS FS Node}.

(** What a statement acts on: the filesystem and the lines printed so far. *)
Record world : Type := World { fs : FS; stdout : list string }.

Definition M (A : Type) : Type := world -> result A * world.

Definition ret {A} (a : A) : M A := fun w => (Returned a, w).

Definition bind {A B} (m : M A) (k : A -> M B) : M B :=
  fun w =>
    match m w with
    | (Returned a, w') => k a w'
    | (Raised e, w') => (Raised e, w')
    end.

(** [try: body] / [except Exception as e: handler e] *)
Definition try_except_Exception {A} (body : M A) (handler : exception -> M A) : M A :=
  fun w =>
    match body w with
    | (Returned a, w') => (Returned a, w')
    | (Raised e, w') =>
        if is_Exception (exc_cls e) then handler e w' else (Raised e, w')
    end.

(** [print(s)] *)
Definition print (s : string) : M unit :=
  fun w => (Returned tt, {| fs := fs w; stdout := stdout w ++ [s] |}).

(** [os.path.exists(p)]: never raises. *)
Definition os_path_exists (p : string) : M bool :=
  fun w => (Returned (host_exists p (fs w)), w).

(** A host delete call as a statement: it returns, or raises [OSError]. *)
Definition delete_call (call : string -> FS -> option string * FS) (p : string) : M unit :=
  fun w =>
    match call p (fs w) with
    | (None, s') => (Returned tt, {| fs := s'; stdout := stdout w |})
    | (Some d, s') =>
        (Raised {| exc_cls := OSError; exc_str := d |},
         {| fs := s'; stdout := stdout w |})
    end.

(** [os.remove(p)] *)
Definition os_remove : string -> M unit := delete_call host_remove.

(** [shutil.rmtree(p)] *)
Definition shutil_rmtree : string -> M unit := delete_call host_rmtree.

(** [for x in xs: body x] *)
Fixpoint for_in {A} (xs : list A) (body : A -> M unit) : M unit :=
  match xs with
  | [] => ret tt
  | x :: xs' => bind (body x) (fun _ => for_in xs' body)
  end.

(** The status the interpreter exits with: 0 when the module body runs to
    its end, 1 when an exception escapes it. *)
Definition exit_status (r : result unit) : Z :=
  match r with
  | Returned _ => 0
  | Raised _ => 1
  end.

End Monad.

Arguments world : clear implicits.
Arguments M : clear implicits.

End Py.

Notation "x <- m ;; k" := (Py.bind m (fun x => k))
  (at level 100, m at level 60, right associativity).
Notation "m ;;; k" := (Py.bind m (fun _ => k))
  (at level 100, right associativity).

(* ===================================================================== *)
(** ** The script *)
(* ===================================================================== *)

Module Cleanup.
Import Py.

Definition test_files : list string :=
  [ "/data/projects/zion/compile_test.zig";
    "/data/projects/zion/test_search.zig";
    "/data/projects/zion/test_simple.zig";
    "/data/projects/zion/test_build.sh";
    "/data/projects/zion/cleanup.py" ].

Definition test_project_dir : string := "/data/projects/zion/test-project".

(** *** The message formats of the output interface

    The six formats the specification lists, as functions of their
    placeholders.  The script below spells its own texts out; that the two
    agree is part of what is proved. *)

Definition msg_removed (file : string) : string := "Removed " +:+ file.
Definition msg_not_found (file : string) : string := "File not found: " +:+ file.
Definition msg_error (file e : string) : string :=
  "Error removing " +:+ file +:+ ": " +:+ e.
Definition msg_removed_dir (dir : string) : string := "Removed directory " +:+ dir.
Definition msg_error_dir (dir e : string) : string :=
  "Error removing directory " +:+ dir +:+ ": " +:+ e.
Definition msg_complete : string := "Cleanup complete".

Section Script.
Context {FS Node : Type} `{!HostFS FS Node}.

(** The body of the [for file in test_files] loop. *)
Definition remove_file (file : string) : M FS unit :=
  try_except_Exception
    (b <- os_path_exists file ;;
     if b
     then os_remove file ;;; print ("Removed " +:+ file)
     else print ("File not found: " +:+ file))
    (fun e => print ("Error removing " +:+ file +:+ ": " +:+ exc_str e)).

(** The [if os.path.exists(test_project_dir)] statement, for a directory
    path [dir]. *)
Definition remove_dir (dir : string) : M FS unit :=
  b <- os_path_exists dir ;;
  if b
  then try_except_Exception
         (shutil_rmtree dir ;;; print ("Removed directory " +:+ dir))
         (fun e => print ("Error removing directory " +:+ dir +:+ ": " +:+ exc_str e))
  else ret tt.

(** The module body, with the two constants as parameters. *)
Definition cleanup (files : list string) (dir : string) : M FS unit :=
  for_in files remove_file ;;;
  remove_dir dir ;;;
  print "Cleanup complete".

(** The module body of [cleanup.py]. *)
Definition main : M FS unit := cleanup test_files test_project_dir.

(** One run of the script from filesystem [s], nothing printed yet. *)
Definition run (s : FS) : result unit * world FS := main (World s []).

Definition output (s : FS) : list string := stdout (run s).2.
Definition final_fs (s : FS) : FS := fs (run s).2.
Definition status (s : FS) : Z := exit_status (run s).1.

(** The world when the [for] loop is done, that is, when the directory is
    checked. *)
Definition after_files (s : FS) : world FS :=
  (for_in test_files remove_file (World s [])).2.

(** *** The outcomes, in the words of the specification *)

(** What processing one file path [P] amounts to: the line it prints and the
    filesystem it leaves. *)
Inductive file_outcome (P : string) (s : FS) : string -> FS -> Prop :=
| FileNotFound :
    host_exists P s = false ->
    file_outcome P s (msg_not_found P) s
| FileRemoved s' :
    host_exists P s = true ->
    host_remove P s = (None, s') ->
    file_outcome P s (msg_removed P) s'
| FileError d s' :
    host_exists P s = true ->
    host_remove P s = (Some d, s') ->
    file_outcome P s (msg_error P d) s'.

(** A list of paths processed one after the other, each from the filesystem
    the previous one left. *)
Inductive files_outcomes : list string -> FS -> list string -> FS -> Prop :=
| FilesDone s :
    files_outcomes [] s [] s
| FilesStep P Ps s l s1 ls s2 :
    file_outcome P s l s1 ->
    files_outcomes Ps s1 ls s2 ->
    files_outcomes (P :: Ps) s (l :: ls) s2.

(** What processing the directory path [D] amounts to: at most one line. *)
Inductive dir_outcome (D : string) (s : FS) : list string -> FS -> Prop :=
| DirAbsent :
    host_exists D s = false ->
    dir_outcome D s [] s
| DirRemoved s' :
    host_exists D s = true ->
    host_rmtree D s = (None, s') ->
    dir_outcome D s [msg_removed_dir D] s'
| DirError d s' :
    host_exists D s = true ->
    host_rmtree D s = (Some d, s') ->
    dir_outcome D s [msg_error_dir D d] s'.

End Script.

(** *** Reading the transcript *)

(** [s] begins with [pre]. *)
Fixpoint starts_with (pre s : string) : bool :=
  match pre with
  | EmptyString => true
  | String a pre' =>
      match s with
      | EmptyString => false
      | String b s' => Ascii.eqb a b && starts_with pre' s'
      end
  end.

(** [l] is one of the three lines the script has for the file path [P]. *)
Definition file_line (P l : string) : Prop :=
  l = msg_removed P \/ l = msg_not_found P \/ exists d, l = msg_error P d.

(** [dl] is what the script may print for the directory path [D]: nothing,
    or one of its two lines. *)
Definition dir_lines (D : string) (dl : list string) : Prop :=
  dl = [] \/ dl = [msg_removed_dir D] \/ exists d, dl = [msg_error_dir D d].

(** [l] is an outcome line for the file path [P]. *)
Definition outcome_line_for (P l : string) : bool :=
  String.eqb l (msg_removed P)
  || String.eqb l (msg_not_found P)
  || starts_with (msg_error P "") l.

(** [l] is an outcome line for the directory path [D]. *)
Definition dir_line_for (D l : string) : bool :=
  String.eqb l (msg_removed_dir D)
  || starts_with (msg_error_dir D "") l.

(** [l] reports a failed delete, of a file or of the directory. *)
Definition is_error_line (l : string) : bool := starts_with "Error removing " l.

Definition count_lines (f : string -> bool) (ls : list string) : nat :=
  length (List.filter f ls).

(** The six message formats of the output interface. *)
Inductive format : Type :=
| FmtRemoved            (* Removed {path} *)
| FmtNotFound           (* File not found: {path} *)
| FmtError              (* Error removing {path}: {error} *)
| FmtRemovedDir         (* Removed directory {path} *)
| FmtErrorDir           (* Error removing directory {path}: {error} *)
| FmtComplete.          (* Cleanup complete *)

(** A format with its placeholders filled in. *)
Record message : Type := Message { fmt : format; path : string; error : string }.

Definition render (m : message) : string :=
  match fmt m with
  | FmtRemoved => msg_removed (path m)
  | FmtNotFound => msg_not_found (path m)
  | FmtError => msg_error (path m) (error m)
  | FmtRemovedDir => msg_removed_dir (path m)
  | FmtErrorDir => msg_error_dir (path m) (error m)
  | FmtComplete => msg_complete
  end.

(** The targets are absolute paths: [{path}] stands for one. *)
Definition is_absolute (p : string) : bool := starts_with "/" p.

(** Line [l] is an instance of format [f]. *)
Definition matches (f : format) (l : string) : Prop :=
  exists p e, is_absolute p = true /\ render (Message f p e) = l.

(** *** What the host is expected to do *)

(** [q] is [d] or lies below it. *)
Definition in_subtree (d q : string) : bool :=
  String.eqb q d || starts_with (d +:+ "/") q.

(** Deleting deletes: after a delete call that returned, the path is gone,
    and no delete call, returning or raising, makes an absent path exist. *)
Class DeleteLaws (FS Node : Type) `{!HostFS FS Node} : Prop := {
  remove_gone p s s' :
    host_remove p s = (None, s') -> host_exists p s' = false;
  rmtree_gone p s s' :
    host_rmtree p s = (None, s') -> host_exists p s' = false;
  remove_creates_nothing p q s r s' :
    host_remove p s = (r, s') -> host_exists q s = false -> host_exists q s' = false;
  rmtree_creates_nothing p q s r s' :
    host_rmtree p s = (r, s') -> host_exists q s = false -> host_exists q s' = false
}.

(** A delete call touches the entry it is given, [rmtree] the entries of the
    subtree it is given, and nothing else. *)
Class FrameLaws (FS Node : Type) `{!HostFS FS Node} : Prop := {
  remove_frame p q s r s' :
    host_remove p s = (r, s') -> q <> p -> host_node q s' = host_node q s;
  rmtree_frame d q s r s' :
    host_rmtree d s = (r, s') -> in_subtree d q = false -> host_node q s' = host_node q s
}.

End Cleanup.

(* ===================================================================== *)
(** ** A host in memory *)
(* ===================================================================== *)

Module MemFS.
Import Py Cleanup.

(** A directory entry. *)
Inductive node : Type :=
| File (data : string)
| Dir
| Symlink (target : string).

Definition is_dir (n : node) : bool :=
  match n with
  | Dir => true
  | _ => false
  end.

(** The entries, by absolute path, and the paths whose entry the process is
    not allowed to delete. *)
Record memfs : Type := MemFs { nodes : gmap string node; locked : gset string }.

(** Following links from [p], at most [fuel] of them, ends on an entry. *)
Fixpoint resolves (fuel : nat) (m : gmap string node) (p : string) : bool :=
  match m !! p with
  | None => false
  | Some (Symlink t) =>
      match fuel with
      | O => false
      | S fuel' => resolves fuel' m t
      end
  | Some _ => true
  end.

(** [os.path.exists]: true when the path, links followed, names an entry.
    The host gives up after 40 links, as the kernel does. *)
Definition mem_exists (p : string) (s : memfs) : bool := resolves 40 (nodes s) p.

Definition os_error (errno strerror p : string) : string :=
  "[Errno " +:+ errno +:+ "] " +:+ strerror +:+ ": '" +:+ p +:+ "'".

(** [os.remove]: unlinks a file or a link; refuses a directory, a missing
    path and a locked one. *)
Definition mem_remove (p : string) (s : memfs) : option string * memfs :=
  match nodes s !! p with
  | None => (Some (os_error "2" "No such file or directory" p), s)
  | Some Dir => (Some (os_error "21" "Is a directory" p), s)
  | Some _ =>
      if bool_decide (p ∈ locked s)
      then (Some (os_error "13" "Permission denied" p), s)
      else (None, {| nodes := delete p (nodes s); locked := locked s |})
  end.

(** The entries a returning [rmtree d] keeps: the ones outside the subtree. *)
Definition outside (d : string) (kv : string * node) : bool :=
  negb (in_subtree d kv.1).

(** The entries a failing [rmtree d] keeps: the ones outside the subtree,
    the directories and the locked ones. *)
Definition survives (d : string) (lk : gset string) (kv : string * node) : bool :=
  negb (in_subtree d kv.1) || is_dir kv.2 || bool_decide (kv.1 ∈ lk).

(** The locked entries of the subtree of [d]. *)
Definition blockers (d : string) (s : memfs) : gmap string node :=
  filter (fun kv : string * node => in_subtree d kv.1 = true /\ kv.1 ∈ locked s) (nodes s).

(** [shutil.rmtree]: deletes a directory and all below it; refuses a missing
    path, a file and a link; when an entry of the subtree is locked it
    raises, having deleted the files and links it could. *)
Definition mem_rmtree (d : string) (s : memfs) : option string * memfs :=
  match nodes s !! d with
  | None => (Some (os_error "2" "No such file or directory" d), s)
  | Some (File _) => (Some (os_error "20" "Not a directory" d), s)
  | Some (Symlink _) => (Some "Cannot call rmtree on a symbolic link", s)
  | Some Dir =>
      if bool_decide (blockers d s = ∅)
      then (None, {| nodes := filter (fun kv => outside d kv = true) (nodes s); locked := locked s |})
      else (Some (os_error "13" "Permission denied" d),
            {| nodes := filter (fun kv => survives d (locked s) kv = true) (nodes s); locked := locked s |})
  end.

#[export] Instance mem_host : HostFS memfs node := {
  host_exists := mem_exists;
  host_remove := mem_remove;
  host_rmtree := mem_rmtree;
  host_node p s := nodes s !! p
}.

(** Three filesystems to run the script on. *)

(** Nothing there. *)
Definition fs_empty : memfs := MemFs ∅ ∅.

(** Two of the files, and the project directory with a file in it. *)
Definition fs_typical : memfs :=
  MemFs
    (list_to_map
       [ ("/data/projects/zion/compile_test.zig", File "const std = 0;");
         ("/data/projects/zion/cleanup.py", File "import os");
         ("/data/projects/zion/build.zig", File "pub fn build() void {}");
         ("/data/projects/zion/test-project", Dir);
         ("/data/projects/zion/test-project/build.zig", File "");
         ("/data/projects/zion/test-project/src", Dir);
         ("/data/projects/zion/test-project/src/main.zig", File "") ])
    ∅.

(** A locked file, a directory where a file is expected, a dangling link,
    and a project directory holding a locked file. *)
Definition fs_hostile : memfs :=
  MemFs
    (list_to_map
       [ ("/data/projects/zion/compile_test.zig", File "x");
         ("/data/projects/zion/test_search.zig", Dir);
         ("/data/projects/zion/test_simple.zig", Symlink "/nowhere");
         ("/data/projects/zion/test_build.sh", File "#!/bin/sh");
         ("/data/projects/zion/test-project", Dir);
         ("/data/projects/zion/test-project/a", File "");
         ("/data/projects/zion/test-project/b", File "") ])
    {[ "/data/projects/zion/compile_test.zig";
       "/data/projects/zion/test-project/b" ]}.

(** A directory where a file is expected, and nothing locked: no delete is
    refused for lack of permission. *)
Definition fs_directory_in_the_way : memfs :=
  MemFs
    (list_to_map
       [ ("/data/projects/zion/compile_test.zig", File "x");
         ("/data/projects/zion/test_search.zig", Dir);
         ("/data/projects/zion/test-project", Dir);
         ("/data/projects/zion/test-project/a", File "") ])
    ∅.

End MemFS.

(* ===================================================================== *)
(** ** A host that keeps a record of the delete calls *)
(* ===================================================================== *)

Module Trace.
Import Py Cleanup.

(** One delete call: which function, on which path, and the text it raised
    with, if it raised. *)
Inductive call : Type :=
| Remove (p : string) (raised : option string)
| Rmtree (p : string) (raised : option string).

Definition call_path (c : call) : string :=
  match c with
  | Remove p _ | Rmtree p _ => p
  end.

Definition is_remove (c : call) : bool :=
  match c with
  | Remove _ _ => true
  | Rmtree _ _ => false
  end.

(** The line the script prints once a delete call is over. *)
Definition report (c : call) : string :=
  match c with
  | Remove p None => msg_removed p
  | Remove p (Some d) => msg_error p d
  | Rmtree p None => msg_removed_dir p
  | Rmtree p (Some d) => msg_error_dir p d
  end.

(** A filesystem of any host, with the delete calls made on it so far. *)
Record traced (FS : Type) : Type := Traced { inner : FS; calls : list call }.
Arguments Traced {FS} inner calls.
Arguments inner {FS} t.
Arguments calls {FS} t.

(** A delete call of the host underneath, written down as it is made. *)
Definition traced_call {FS : Type} (kind : string -> option string -> call)
    (f : string -> FS -> option string * FS) (p : string) (t : traced FS)
    : option string * traced FS :=
  match f p (inner t) with
  | (r, s') => (r, Traced s' (calls t ++ [kind p r]))
  end.

#[export] Instance traced_host {FS Node : Type} `{!HostFS FS Node}
    : HostFS (traced FS) Node := {
  host_exists p t := host_exists p (inner t);
  host_remove := traced_call Remove host_remove;
  host_rmtree := traced_call Rmtree host_rmtree;
  host_node p t := host_node p (inner t)
}.

(** The delete calls of one run from filesystem [s], in the order made. *)
Definition calls_of_run {FS Node : Type} `{!HostFS FS Node} (s : FS) : list call :=
  calls (final_fs (Traced s [])).

(** [l] is neither a "not found" line nor the completion line. *)
Definition is_call_line (l : string) : bool :=
  negb (starts_with "File not found: " l) && negb (String.eqb l msg_complete).

(** The one thing the call record needs of a host: no delete call,
    returning or raising, makes an absent path exist.  Nothing is asked of
    what a delete call deletes. *)
Class CreatesNothing (FS Node : Type) `{!HostFS FS Node} : Prop := {
  remove_keeps_absent p q s r s' :
    host_remove p s = (r, s') -> host_exists q s = false -> host_exists q s' = false;
  rmtree_keeps_absent p q s r s' :
    host_rmtree p s = (r, s') -> host_exists q s = false -> host_exists q s' = false
}.

End Trace.

(* ===================================================================== *)
(** ** What a run does, for every host *)
(* ===================================================================== *)

Module Correct.
Import Py Cleanup.

(** *** Telling the lines apart *)

Lemma count_lines_app (f : string -> bool) (a b : list string) :
  count_lines f (a ++ b) = count_lines f a + count_lines f b.
Proof. unfold count_lines. now rewrite List.filter_app, length_app. Qed.

Lemma count_lines_cons (f : string -> bool) (l : string) (ls : list string) :
  count_lines f (l :: ls) = (if f l then 1 else 0) + count_lines f ls.
Proof. unfold count_lines. simpl. now destruct (f l). Qed.

(** A line of file [Q] is an outcome line for file [P] exactly when the two
    paths are the same: no path of the list begins another one. *)
Lemma outcome_line_for_file (P Q l : string) :
  In P test_files -> In Q test_files -> file_line Q l ->
  outcome_line_for P l = String.eqb P Q.
Proof.
  unfold test_files. simpl. intros HP HQ Hl.
  repeat (destruct HP as [ <- | HP ]; [ | ]); try contradiction;
    repeat (destruct HQ as [ <- | HQ ]; [ | ]); try contradiction;
    destruct Hl as [ -> | [ -> | [ d -> ] ] ]; reflexivity.
Qed.

Lemma outcome_line_for_dir (P : string) (dl : list string) :
  In P test_files -> dir_lines test_project_dir dl ->
  count_lines (outcome_line_for P) dl = 0.
Proof.
  unfold test_files. simpl. intros HP Hdl.
  repeat (destruct HP as [ <- | HP ]; [ | ]); try contradiction;
    destruct Hdl as [ -> | [ -> | [ d -> ] ] ]; reflexivity.
Qed.

Lemma outcome_line_for_complete (P : string) :
  In P test_files -> outcome_line_for P msg_complete = false.
Proof.
  unfold test_files. simpl. intros HP.
  repeat (destruct HP as [ <- | HP ]; [ | ]); try contradiction; reflexivity.
Qed.

Lemma file_line_outcome (P l : string) :
  file_line P l -> outcome_line_for P l = true.
Proof.
  intros [ -> | [ -> | [ d -> ] ] ]; unfold outcome_line_for.
  - now rewrite String.eqb_refl.
  - rewrite String.eqb_refl. now rewrite orb_true_r.
  - rewrite orb_true_iff. right.
    unfold msg_error. simpl.
    induction P as [ | a P IH ]; simpl.
    + reflexivity.
    + now rewrite Ascii.eqb_refl.
Qed.

Lemma file_line_not_complete (P l : string) :
  file_line P l -> String.eqb msg_complete l = false.
Proof. intros [ -> | [ -> | [ d -> ] ] ]; reflexivity. Qed.

Lemma dir_lines_not_complete (D : string) (dl : list string) :
  dir_lines D dl -> count_lines (String.eqb msg_complete) dl = 0.
Proof. intros [ -> | [ -> | [ d -> ] ] ]; reflexivity. Qed.

Lemma dir_lines_outcome (D : string) (dl : list string) :
  dir_lines D dl ->
  dl = [] \/ exists l, dl = [l] /\ dir_line_for D l = true.
Proof.
  intros [ -> | [ -> | [ d -> ] ] ]; [ now left | right | right ];
    eexists; (split; [ reflexivity | ]); unfold dir_line_for.
  - now rewrite String.eqb_refl.
  - rewrite orb_true_iff. right.
    unfold msg_error_dir. simpl.
    induction D as [ | a D IH ]; simpl.
    + reflexivity.
    + now rewrite Ascii.eqb_refl.
Qed.

Lemma file_lines_not_complete (Qs ls : list string) :
  Forall2 file_line Qs ls -> count_lines (String.eqb msg_complete) ls = 0.
Proof.
  induction 1 as [ | Q l Qs ls Hl _ IH ]; [ reflexivity | ].
  now rewrite count_lines_cons, IH, (file_line_not_complete Q l Hl).
Qed.

(** An absolute path begins with a slash. *)
Lemma is_absolute_inv (p : string) :
  is_absolute p = true -> exists p', p = String (Ascii.ascii_of_nat 47) p'.
Proof.
  destruct p as [ | a p' ]; [ discriminate | ].
  destruct a as [ [] [] [] [] [] [] [] [] ]; try discriminate.
  intros _. now exists p'.
Qed.

(** With absolute paths in the placeholders, no text is an instance of two
    formats. *)
Lemma matches_one_format (f1 f2 : format) (l : string) :
  matches f1 l -> matches f2 l -> f1 = f2.
Proof.
  intros (p1 & e1 & Hp1 & H1) (p2 & e2 & Hp2 & H2).
  apply is_absolute_inv in Hp1 as [q1 ->].
  apply is_absolute_inv in Hp2 as [q2 ->].
  subst l.
  destruct f1, f2; try reflexivity; discriminate H2.
Qed.

Lemma file_line_matches (P l : string) :
  is_absolute P = true -> file_line P l ->
  matches FmtRemoved l \/ matches FmtNotFound l \/ matches FmtError l.
Proof.
  intros HP [ -> | [ -> | [ d -> ] ] ].
  - left. now exists P, "".
  - right. left. now exists P, "".
  - right. right. now exists P, d.
Qed.

Lemma file_lines_match (Ps ls : list string) :
  Forall (fun P => is_absolute P = true) Ps ->
  Forall2 file_line Ps ls ->
  Forall (fun l => matches FmtRemoved l \/ matches FmtNotFound l
                   \/ matches FmtError l) ls.
Proof.
  intros Habs Hlines. revert Habs.
  induction Hlines as [ | P l Ps ls Hl _ IH ]; intros Habs; constructor.
  - inversion Habs; subst. now apply (file_line_matches P).
  - inversion Habs; subst. now apply IH.
Qed.

Lemma test_files_absolute : Forall (fun P => is_absolute P = true) test_files.
Proof. repeat constructor. Qed.

Section AnyHost.
Context {FS Node : Type} `{!HostFS FS Node}.

(** *** The statements of the script, one by one *)

(** The handler is for [Exception] and what derives from it: anything else
    leaves the [try] statement as it came. *)
Lemma try_except_Exception_selective {A : Type} (body : M FS A)
    (handler : exception -> M FS A) (w w' : world FS) (e : exception) :
  body w = (Raised e, w') ->
  try_except_Exception body handler w =
    if is_Exception (exc_cls e) then handler e w' else (Raised e, w').
Proof. intros Hbody. unfold try_except_Exception. now rewrite Hbody. Qed.

(** A delete call raises nothing but [OSError]. *)
Lemma delete_call_raises_OSError (call : string -> FS -> option string * FS)
    (p : string) (w w' : world FS) (e : exception) :
  delete_call call p w = (Raised e, w') -> exc_cls e = OSError.
Proof.
  unfold delete_call. destruct (call p (fs w)) as [ [ d | ] s' ];
    intros [= <- <-]; reflexivity.
Qed.

Lemma remove_file_outcome (P : string) (w : world FS) :
  exists l s',
    file_outcome P (fs w) l s' /\
    remove_file P w = (Returned tt, World s' (stdout w ++ [l])).
Proof.
  unfold remove_file, try_except_Exception, bind, os_path_exists, os_remove,
    delete_call, print.
  destruct (host_exists P (fs w)) eqn:Hex.
  - destruct (host_remove P (fs w)) as [[d|] s'] eqn:Hrm; simpl.
    + exists (msg_error P d), s'. split; [ | reflexivity ].
      now apply FileError.
    + exists (msg_removed P), s'. split; [ | reflexivity ].
      now apply FileRemoved.
  - simpl. exists (msg_not_found P), (fs w). split; [ | reflexivity ].
    now apply FileNotFound.
Qed.

Lemma for_in_files_outcomes (Ps : list string) (w : world FS) :
  exists ls s',
    files_outcomes Ps (fs w) ls s' /\
    for_in Ps remove_file w = (Returned tt, World s' (stdout w ++ ls)).
Proof.
  revert w. induction Ps as [ | P Ps IH ]; intros w.
  - exists [], (fs w). split; [ constructor | ].
    destruct w as [s out]. simpl. unfold ret. now rewrite app_nil_r.
  - destruct (remove_file_outcome P w) as (l & s1 & Hl & Hrun).
    destruct (IH (World s1 (stdout w ++ [l]))) as (ls & s2 & Hls & Hrest).
    exists (l :: ls), s2. split.
    + econstructor; eassumption.
    + simpl. unfold bind at 1. rewrite Hrun, Hrest. simpl.
      now rewrite <- app_assoc.
Qed.

Lemma remove_dir_outcome (D : string) (w : world FS) :
  exists dl s',
    dir_outcome D (fs w) dl s' /\
    remove_dir D w = (Returned tt, World s' (stdout w ++ dl)).
Proof.
  unfold remove_dir, try_except_Exception, bind, os_path_exists,
    shutil_rmtree, delete_call, print, ret.
  destruct (host_exists D (fs w)) eqn:Hex.
  - destruct (host_rmtree D (fs w)) as [[d|] s'] eqn:Hrm; simpl.
    + exists [msg_error_dir D d], s'. split; [ | reflexivity ].
      now apply DirError.
    + exists [msg_removed_dir D], s'. split; [ | reflexivity ].
      now apply DirRemoved.
  - exists [], (fs w). split; [ now apply DirAbsent | ].
    destruct w as [s out]. simpl. now rewrite app_nil_r.
Qed.

Lemma cleanup_outcomes (files : list string) (dir : string) (w : world FS) :
  exists ls s1 dl s2,
    files_outcomes files (fs w) ls s1 /\
    dir_outcome dir s1 dl s2 /\
    for_in files remove_file w = (Returned tt, World s1 (stdout w ++ ls)) /\
    cleanup files dir w =
      (Returned tt, World s2 (stdout w ++ ls ++ dl ++ [msg_complete])).
Proof.
  destruct (for_in_files_outcomes files w) as (ls & s1 & Hls & Hfiles).
  destruct (remove_dir_outcome dir (World s1 (stdout w ++ ls)))
    as (dl & s2 & Hdl & Hdir).
  exists ls, s1, dl, s2. repeat split; try assumption.
  unfold cleanup, bind at 1. rewrite Hfiles.
  unfold bind at 1. rewrite Hdir. unfold print. simpl.
  now rewrite <- !app_assoc.
Qed.

(** The whole run, from nothing printed. *)
Lemma run_outcomes (s : FS) :
  exists ls s1 dl s2,
    files_outcomes test_files s ls s1 /\
    dir_outcome test_project_dir s1 dl s2 /\
    after_files s = World s1 ls /\
    run s = (Returned tt, World s2 (ls ++ dl ++ [msg_complete])).
Proof.
  destruct (cleanup_outcomes test_files test_project_dir (World s []))
    as (ls & s1 & dl & s2 & Hls & Hdl & Hfiles & Hrun).
  exists ls, s1, dl, s2. repeat split; try assumption.
  unfold after_files. now rewrite Hfiles.
Qed.

(** *** From outcomes to lines *)

Lemma file_outcome_line (P : string) (s : FS) (l : string) (s' : FS) :
  file_outcome P s l s' -> file_line P l.
Proof.
  intros [ Hex | s1 Hex Hrm | d s1 Hex Hrm ]; unfold file_line; eauto.
Qed.

Lemma files_outcomes_lines (Ps : list string) (s : FS) (ls : list string) (s' : FS) :
  files_outcomes Ps s ls s' -> Forall2 file_line Ps ls.
Proof.
  induction 1 as [ s | P Ps s l s1 ls s2 Hl _ IH ]; constructor.
  - eapply file_outcome_line; eassumption.
  - exact IH.
Qed.

Lemma dir_outcome_lines (D : string) (s : FS) (dl : list string) (s' : FS) :
  dir_outcome D s dl s' -> dir_lines D dl.
Proof.
  intros [ Hex | s1 Hex Hrm | d s1 Hex Hrm ]; unfold dir_lines; eauto.
Qed.


(** The file lines, counted for one path of the list. *)
Lemma count_file_lines (P : string) (Qs ls : list string) :
  In P test_files -> Forall (fun Q => In Q test_files) Qs ->
  Forall2 file_line Qs ls ->
  count_lines (outcome_line_for P) ls = count_lines (String.eqb P) Qs.
Proof.
  intros HP HQs Hls. induction Hls as [ | Q l Qs ls Hl _ IH ].
  - reflexivity.
  - inversion HQs as [ | ? ? HQ HQs' ]; subst.
    rewrite !count_lines_cons, IH by assumption.
    now rewrite (outcome_line_for_file P Q l).
Qed.

Lemma test_files_closed : Forall (fun Q => In Q test_files) test_files.
Proof. apply List.Forall_forall. auto. Qed.

Lemma count_in_test_files (P : string) :
  In P test_files -> count_lines (String.eqb P) test_files = 1.
Proof.
  unfold test_files. simpl. intros HP.
  repeat (destruct HP as [ <- | HP ]; [ | ]); try contradiction; reflexivity.
Qed.

(** *** The claims about the transcript *)

(** C1. Each of the five file paths is processed in turn, from the
    filesystem its predecessor left, with the outcome the specification
    gives: "File not found: P" when P is absent, "Removed P" when it exists
    and the delete returns, "Error removing P: d" when the delete raises
    with text d.  The loop reaches its end whatever fails on the way (all
    five outcomes are there when the directory is checked), and the
    transcript of the run holds exactly one outcome line for each path. *)
Theorem file_loop_reports_each_path_once (s : FS) :
  exists ls s1 rest,
    files_outcomes test_files s ls s1 /\
    after_files s = World s1 ls /\
    output s = ls ++ rest /\
    Forall (fun P => count_lines (outcome_line_for P) (output s) = 1) test_files.
Proof.
  destruct (run_outcomes s) as (ls & s1 & dl & s2 & Hls & Hdl & Hafter & Hrun).
  exists ls, s1, (dl ++ [msg_complete]).
  unfold output. rewrite Hrun. simpl.
  repeat split; try assumption.
  apply List.Forall_forall. intros P HP.
  rewrite !count_lines_app, count_lines_cons.
  rewrite (count_file_lines P test_files ls HP test_files_closed
             (files_outcomes_lines _ _ _ _ Hls)).
  rewrite (count_in_test_files P HP).
  rewrite (outcome_line_for_dir P dl HP (dir_outcome_lines _ _ _ _ Hdl)).
  now rewrite (outcome_line_for_complete P HP).
Qed.

(** C2. No failure of a delete call leaves the statement it happens in: the
    loop body and the directory statement return normally from every world,
    a raising [os.remove] or [shutil.rmtree] becomes the printed error line
    carrying its text, and the run as a whole returns normally, so that the
    exit status is 0. *)
Theorem failures_are_printed_and_suppressed (s : FS) :
  (run s).1 = Returned tt /\
  status s = 0%Z /\
  (forall P w, (remove_file P w).1 = Returned tt) /\
  (forall D w, (remove_dir D w).1 = Returned tt) /\
  (forall P w d s',
     host_exists P (fs w) = true ->
     host_remove P (fs w) = (Some d, s') ->
     remove_file P w = (Returned tt, World s' (stdout w ++ [msg_error P d]))) /\
  (forall D w d s',
     host_exists D (fs w) = true ->
     host_rmtree D (fs w) = (Some d, s') ->
     remove_dir D w = (Returned tt, World s' (stdout w ++ [msg_error_dir D d]))).
Proof.
  destruct (run_outcomes s) as (ls & s1 & dl & s2 & _ & _ & _ & Hrun).
  unfold status. rewrite Hrun. simpl.
  repeat split.
  - intros P w. destruct (remove_file_outcome P w) as (l & s' & _ & ->).
    reflexivity.
  - intros D w. destruct (remove_dir_outcome D w) as (l & s' & _ & ->).
    reflexivity.
  - intros P w d s' Hex Hrm.
    unfold remove_file, try_except_Exception, bind, os_path_exists,
      os_remove, delete_call, print.
    now rewrite Hex, Hrm.
  - intros D w d s' Hex Hrm.
    unfold remove_dir, try_except_Exception, bind, os_path_exists,
      shutil_rmtree, delete_call, print.
    now rewrite Hex, Hrm.
Qed.

(** C3. The directory is handled from the world the file loop leaves.  When
    it does not exist there, nothing is printed for it and the filesystem is
    left as it is; when it exists, [rmtree] is called on it and the run
    prints "Removed directory D" if the call returns and "Error removing
    directory D: d" if it raises with text d.  In every case the run goes
    on to its last line and returns normally. *)
Theorem directory_outcome (s : FS) :
  exists dl s2,
    dir_outcome test_project_dir (fs (after_files s)) dl s2 /\
    output s = stdout (after_files s) ++ dl ++ [msg_complete] /\
    final_fs s = s2 /\
    (run s).1 = Returned tt.
Proof.
  destruct (run_outcomes s) as (ls & s1 & dl & s2 & Hls & Hdl & Hafter & Hrun).
  exists dl, s2. unfold output, final_fs. rewrite Hrun, Hafter. simpl.
  repeat split. exact Hdl.
Qed.

(** C4. The run prints "Cleanup complete" after everything the file loop
    and the directory statement printed, with nothing after it, and no
    other line of the transcript is that text: it is the last line and it
    occurs once, whatever the filesystem was and whatever failed. *)
Theorem completion_line_last_and_once (s : FS) :
  exists dl s2,
    dir_outcome test_project_dir (fs (after_files s)) dl s2 /\
    final_fs s = s2 /\
    output s = (stdout (after_files s) ++ dl) ++ ["Cleanup complete"] /\
    last (output s) = Some "Cleanup complete" /\
    count_lines (String.eqb "Cleanup complete") (output s) = 1.
Proof.
  destruct (run_outcomes s) as (ls & s1 & dl & s2 & Hls & Hdl & Hafter & Hrun).
  exists dl, s2. unfold output, final_fs. rewrite Hrun, Hafter.
  cbn [fst snd fs stdout]. fold msg_complete.
  repeat split.
  - exact Hdl.
  - now rewrite <- app_assoc.
  - now rewrite app_assoc, last_snoc.
  - rewrite !count_lines_app.
    rewrite (file_lines_not_complete _ _ (files_outcomes_lines _ _ _ _ Hls)).
    now rewrite (dir_lines_not_complete _ _ (dir_outcome_lines _ _ _ _ Hdl)).
Qed.

(** C5. The transcript is the five file lines, the i-th one an outcome line
    for the i-th path of the list, then at most one line for the directory,
    then the completion line.  The operations run in that order too: the
    five paths are processed one after the other and the directory is
    handled from the filesystem the last of them left. *)
Theorem output_in_target_order (s : FS) :
  exists ls s1 dl s2,
    files_outcomes test_files s ls s1 /\
    dir_outcome test_project_dir s1 dl s2 /\
    final_fs s = s2 /\
    output s = ls ++ dl ++ [msg_complete] /\
    Forall2 (fun P l => outcome_line_for P l = true) test_files ls /\
    (dl = [] \/ exists l, dl = [l] /\ dir_line_for test_project_dir l = true).
Proof.
  destruct (run_outcomes s) as (ls & s1 & dl & s2 & Hls & Hdl & Hafter & Hrun).
  exists ls, s1, dl, s2. unfold output, final_fs. rewrite Hrun. simpl.
  repeat split; try assumption.
  - eapply Forall2_impl.
    + eapply files_outcomes_lines; eassumption.
    + intros P l. apply file_line_outcome.
  - eapply dir_lines_outcome, dir_outcome_lines; eassumption.
Qed.

(** C8. Every line of the transcript is an instance of one of the six
    message formats, with an absolute path for [{path}], and of that format
    only. *)
Theorem every_line_in_one_format (s : FS) :
  Forall (fun l => exists f, matches f l /\ forall f', matches f' l -> f' = f)
         (output s).
Proof.
  destruct (run_outcomes s) as (ls & s1 & dl & s2 & Hls & Hdl & Hafter & Hrun).
  unfold output. rewrite Hrun. simpl.
  assert (Hone : forall f l, matches f l ->
            exists f0, matches f0 l /\ forall f', matches f' l -> f' = f0).
  { intros f l Hf. exists f. split; [ exact Hf | ].
    intros f' Hf'. eapply matches_one_format; eassumption. }
  apply Forall_app. split; [ | apply Forall_app; split ].
  - eapply Forall_impl.
    + apply (file_lines_match test_files ls test_files_absolute).
      eapply files_outcomes_lines; eassumption.
    + intros l [ Hm | [ Hm | Hm ] ]; eapply Hone; exact Hm.
  - destruct (dir_outcome_lines _ _ _ _ Hdl) as [ -> | [ -> | [ d -> ] ] ].
    + constructor.
    + repeat constructor. apply (Hone FmtRemovedDir).
      now exists test_project_dir, "".
    + repeat constructor. apply (Hone FmtErrorDir).
      now exists test_project_dir, d.
  - repeat constructor. apply (Hone FmtComplete).
    now exists "/", "".
Qed.


(** *** Hosts where deleting deletes *)

Section Deleting.
Context `{!DeleteLaws FS Node}.

Lemma file_outcome_absent_stays (q P : string) (s : FS) (l : string) (s' : FS) :
  file_outcome P s l s' -> host_exists q s = false -> host_exists q s' = false.
Proof.
  intros [ Hex | s1 Hex Hrm | d s1 Hex Hrm ] Hq.
  - exact Hq.
  - eapply remove_creates_nothing; eassumption.
  - eapply remove_creates_nothing; eassumption.
Qed.

Lemma files_outcomes_absent_stays (q : string) (Ps : list string) (s : FS)
    (ls : list string) (s' : FS) :
  files_outcomes Ps s ls s' -> host_exists q s = false -> host_exists q s' = false.
Proof.
  induction 1 as [ s | P Ps s l s1 ls s2 Hl _ IH ]; intros Hq.
  - exact Hq.
  - apply IH. eapply file_outcome_absent_stays; eassumption.
Qed.

Lemma dir_outcome_absent_stays (q D : string) (s : FS) (dl : list string) (s' : FS) :
  dir_outcome D s dl s' -> host_exists q s = false -> host_exists q s' = false.
Proof.
  intros [ Hex | s1 Hex Hrm | d s1 Hex Hrm ] Hq.
  - exact Hq.
  - eapply rmtree_creates_nothing; eassumption.
  - eapply rmtree_creates_nothing; eassumption.
Qed.

(** Once a path is processed it is gone, or its error line is printed. *)
Lemma file_outcome_settled (P : string) (s : FS) (l : string) (s' : FS) :
  file_outcome P s l s' ->
  host_exists P s' = false \/ exists d, l = msg_error P d.
Proof.
  intros [ Hex | s1 Hex Hrm | d s1 Hex Hrm ].
  - now left.
  - left. eapply remove_gone; eassumption.
  - right. now exists d.
Qed.



(** A loop that reported no failure leaves every path of its list absent. *)
Lemma files_outcomes_clean (Ps : list string) (s : FS) (ls : list string) (s' : FS) :
  files_outcomes Ps s ls s' ->
  Forall (fun l => is_error_line l = false) ls ->
  Forall (fun P => host_exists P s' = false) Ps.
Proof.
  induction 1 as [ s | P Ps s l s1 ls s2 Hl Hrest IH ]; intros Hclean;
    constructor; inversion Hclean as [ | ? ? Hl0 Hls0 ]; subst.
  - destruct (file_outcome_settled _ _ _ _ Hl) as [ Hgone | [ d -> ] ].
    + eapply files_outcomes_absent_stays; eassumption.
    + discriminate Hl0.
  - now apply IH.
Qed.

Lemma dir_outcome_clean (D : string) (s : FS) (dl : list string) (s' : FS) :
  dir_outcome D s dl s' ->
  Forall (fun l => is_error_line l = false) dl ->
  host_exists D s' = false.
Proof.
  intros [ Hex | s1 Hex Hrm | d s1 Hex Hrm ] Hclean.
  - exact Hex.
  - eapply rmtree_gone; eassumption.
  - inversion Hclean as [ | ? ? Hl0 _ ]; subst. discriminate Hl0.
Qed.

End Deleting.

(** When nothing of the list exists the loop prints the five "not found"
    lines and leaves the filesystem alone. *)
Lemma files_outcomes_all_absent (Ps : list string) (s : FS) (ls : list string) (s' : FS) :
  Forall (fun P => host_exists P s = false) Ps ->
  files_outcomes Ps s ls s' ->
  ls = map msg_not_found Ps /\ s' = s.
Proof.
  intros Habs Hls. induction Hls as [ s | P Ps s l s1 ls s2 Hl Hrest IH ].
  - now split.
  - inversion Habs as [ | ? ? HP HPs ]; subst.
    destruct Hl as [ Hex | s1 Hex Hrm | d s1 Hex Hrm ]; try congruence.
    destruct (IH HPs) as [ -> -> ]. now split.
Qed.

Lemma dir_outcome_absent (D : string) (s : FS) (dl : list string) (s' : FS) :
  host_exists D s = false -> dir_outcome D s dl s' -> dl = [] /\ s' = s.
Proof.
  intros Habs [ Hex | s1 Hex Hrm | d s1 Hex Hrm ]; try congruence. now split.
Qed.

(** C7, as amended. On a host where deleting deletes, take a run that
    reported no failed delete of any kind (not only no refusal for lack of
    permission) and run the script again from the filesystem it left.
    The second run prints "File not found: P" for each of the five paths,
    nothing for the directory, and the completion line; it reports no
    failure, returns normally and leaves the filesystem as it found it. *)
Theorem second_run_finds_nothing `{!DeleteLaws FS Node} (s : FS) :
  Forall (fun l => is_error_line l = false) (output s) ->
  output (final_fs s) = map msg_not_found test_files ++ [msg_complete] /\
  Forall (fun l => is_error_line l = false) (output (final_fs s)) /\
  final_fs (final_fs s) = final_fs s /\
  status (final_fs s) = 0%Z.
Proof.
  destruct (run_outcomes s) as (ls & s1 & dl & s2 & Hls & Hdl & Hafter & Hrun).
  assert (Hfinal : final_fs s = s2) by (unfold final_fs; now rewrite Hrun).
  assert (Hout : output s = ls ++ dl ++ [msg_complete])
    by (unfold output; now rewrite Hrun).
  rewrite Hfinal, Hout. clear Hfinal Hout Hrun Hafter.
  intros Hclean.
  apply Forall_app in Hclean as [ Hcl_files Hclean ].
  apply Forall_app in Hclean as [ Hcl_dir _ ].
  assert (Hfiles : Forall (fun P => host_exists P s2 = false) test_files).
  { eapply Forall_impl; [ exact (files_outcomes_clean _ _ _ _ Hls Hcl_files) | ].
    intros P HP. eapply dir_outcome_absent_stays; eassumption. }
  assert (Hdir : host_exists test_project_dir s2 = false).
  { eapply dir_outcome_clean; eassumption. }
  destruct (run_outcomes s2) as (ls' & s1' & dl' & s2' & Hls' & Hdl' & _ & Hrun').
  destruct (files_outcomes_all_absent _ _ _ _ Hfiles Hls') as [ -> -> ].
  destruct (dir_outcome_absent _ _ _ _ Hdir Hdl') as [ -> -> ].
  unfold output, final_fs, status. rewrite Hrun'. cbn [fst snd fs stdout].
  repeat split. repeat constructor.
Qed.

(** *** Hosts where a delete touches its target only *)

Section Frame.
Context `{!FrameLaws FS Node}.

Lemma file_outcome_frame (q P : string) (s : FS) (l : string) (s' : FS) :
  file_outcome P s l s' -> q <> P -> host_node q s' = host_node q s.
Proof.
  intros [ Hex | s1 Hex Hrm | d s1 Hex Hrm ] Hq.
  - reflexivity.
  - eapply remove_frame; eassumption.
  - eapply remove_frame; eassumption.
Qed.

Lemma files_outcomes_frame (q : string) (Ps : list string) (s : FS)
    (ls : list string) (s' : FS) :
  files_outcomes Ps s ls s' -> ~ In q Ps -> host_node q s' = host_node q s.
Proof.
  induction 1 as [ s | P Ps s l s1 ls s2 Hl _ IH ]; intros Hq.
  - reflexivity.
  - rewrite IH by (intros Hin; apply Hq; now right).
    eapply file_outcome_frame; [ eassumption | ].
    intros ->. apply Hq. now left.
Qed.

Lemma dir_outcome_frame (q D : string) (s : FS) (dl : list string) (s' : FS) :
  dir_outcome D s dl s' -> in_subtree D q = false ->
  host_node q s' = host_node q s.
Proof.
  intros [ Hex | s1 Hex Hrm | d s1 Hex Hrm ] Hq.
  - reflexivity.
  - eapply rmtree_frame; eassumption.
  - eapply rmtree_frame; eassumption.
Qed.

(** C10. On a host where a delete call touches its target only, a path that
    is none of the five files and is neither the project directory nor below
    it has the same entry after the run as before: what was absent is
    absent, what was there is there unchanged. *)
Theorem run_frame (s : FS) (q : string) :
  ~ In q test_files ->
  in_subtree test_project_dir q = false ->
  host_node q (final_fs s) = host_node q s.
Proof.
  intros Hfiles Hdir.
  destruct (run_outcomes s) as (ls & s1 & dl & s2 & Hls & Hdl & Hafter & Hrun).
  unfold final_fs. rewrite Hrun. cbn [fst snd fs stdout].
  rewrite (dir_outcome_frame q _ _ _ _ Hdl Hdir).
  exact (files_outcomes_frame q _ _ _ _ Hls Hfiles).
Qed.

End Frame.

End AnyHost.
End Correct.

(* ===================================================================== *)
(** ** The host in memory obeys the laws *)
(* ===================================================================== *)

Module MemFSLaws.
Import Py Cleanup MemFS.

(** Taking entries away never makes a path resolve. *)
Lemma resolves_mono (fuel : nat) (m m' : gmap string node) (p : string) :
  m' ⊆ m -> resolves fuel m' p = true -> resolves fuel m p = true.
Proof.
  intros Hsub. revert p.
  induction fuel as [ | fuel IH ]; intros p; simpl;
    destruct (m' !! p) as [ n | ] eqn:Hp; try discriminate;
    rewrite (lookup_weaken _ _ _ _ Hp Hsub);
    destruct n; try discriminate; auto.
Qed.

Lemma resolves_absent (fuel : nat) (m m' : gmap string node) (p : string) :
  m' ⊆ m -> resolves fuel m p = false -> resolves fuel m' p = false.
Proof.
  intros Hsub Hp. destruct (resolves fuel m' p) eqn:Hp'; [ | reflexivity ].
  apply (resolves_mono _ _ _ _ Hsub) in Hp'. congruence.
Qed.

Lemma resolves_missing (fuel : nat) (m : gmap string node) (p : string) :
  m !! p = None -> resolves fuel m p = false.
Proof. intros Hp. destruct fuel; simpl; now rewrite Hp. Qed.

Lemma mem_remove_shrinks (p : string) (s : memfs) (r : option string) (s' : memfs) :
  mem_remove p s = (r, s') -> nodes s' ⊆ nodes s.
Proof.
  unfold mem_remove.
  destruct (nodes s !! p) as [ [ data | | target ] | ];
    try case_bool_decide; intros [= <- <-]; simpl;
    first [ reflexivity | apply delete_subseteq ].
Qed.

Lemma mem_rmtree_shrinks (d : string) (s : memfs) (r : option string) (s' : memfs) :
  mem_rmtree d s = (r, s') -> nodes s' ⊆ nodes s.
Proof.
  unfold mem_rmtree.
  destruct (nodes s !! d) as [ [ data | | target ] | ];
    try case_bool_decide; intros [= <- <-]; simpl;
    first [ reflexivity | apply map_filter_subseteq ].
Qed.

Lemma in_subtree_refl (d : string) : in_subtree d d = true.
Proof. unfold in_subtree. now rewrite String.eqb_refl. Qed.

#[local] Arguments resolves : simpl never.

#[export] Instance mem_delete_laws : DeleteLaws memfs node.
Proof.
  split.
  - intros p s s'. simpl. unfold mem_remove, mem_exists.
    destruct (nodes s !! p) as [ [ data | | target ] | ];
      try case_bool_decide; intros [= <-]; simpl;
      apply resolves_missing, lookup_delete_eq.
  - intros p s s'. simpl. unfold mem_rmtree, mem_exists.
    destruct (nodes s !! p) as [ [ data | | target ] | ];
      try case_bool_decide; intros [= <-]; simpl.
    apply resolves_missing, map_lookup_filter_None_2. right.
    intros n _. unfold outside. simpl. now rewrite in_subtree_refl.
  - intros p q s r s' Hrm. simpl. unfold mem_exists.
    apply resolves_absent. eapply mem_remove_shrinks, Hrm.
  - intros p q s r s' Hrm. simpl. unfold mem_exists.
    apply resolves_absent. eapply mem_rmtree_shrinks, Hrm.
Qed.

Lemma filter_keeps (f : string * node -> bool) (m : gmap string node) (q : string) :
  (forall n, f (q, n) = true) ->
  filter (fun kv => f kv = true) m !! q = m !! q.
Proof.
  intros Hf. destruct (m !! q) as [ n | ] eqn:Hq.
  - apply map_lookup_filter_Some_2; [ exact Hq | apply Hf ].
  - apply map_lookup_filter_None_2. now left.
Qed.

#[export] Instance mem_frame_laws : FrameLaws memfs node.
Proof.
  split.
  - intros p q s r s'. simpl. unfold mem_remove.
    destruct (nodes s !! p) as [ [ data | | target ] | ];
      try case_bool_decide; intros [= <- <-] Hq; simpl;
      first [ reflexivity | now apply lookup_delete_ne ].
  - intros d q s r s'. simpl. unfold mem_rmtree.
    destruct (nodes s !! d) as [ [ data | | target ] | ];
      try case_bool_decide; intros [= <- <-] Hq; simpl;
      try reflexivity; apply filter_keeps; intros n.
    + unfold outside. simpl. now rewrite Hq.
    + unfold survives. simpl. now rewrite Hq.
Qed.

End MemFSLaws.

(* ===================================================================== *)
(** ** Runs on the host in memory *)
(* ===================================================================== *)

Module Runs.
Import Py Cleanup MemFS MemFSLaws.

(** Nothing to clean: five "not found" lines and the completion line. *)
Example run_on_empty :
  run fs_empty =
    (Returned tt,
     World fs_empty
       [ "File not found: /data/projects/zion/compile_test.zig";
         "File not found: /data/projects/zion/test_search.zig";
         "File not found: /data/projects/zion/test_simple.zig";
         "File not found: /data/projects/zion/test_build.sh";
         "File not found: /data/projects/zion/cleanup.py";
         "Cleanup complete" ]).
Proof. vm_compute. reflexivity. Qed.

Example output_on_typical :
  output fs_typical =
    [ "Removed /data/projects/zion/compile_test.zig";
      "File not found: /data/projects/zion/test_search.zig";
      "File not found: /data/projects/zion/test_simple.zig";
      "File not found: /data/projects/zion/test_build.sh";
      "Removed /data/projects/zion/cleanup.py";
      "Removed directory /data/projects/zion/test-project";
      "Cleanup complete" ].
Proof. vm_compute. reflexivity. Qed.

Example left_on_typical :
  map_to_list (nodes (final_fs fs_typical)) =
    [ ("/data/projects/zion/build.zig", File "pub fn build() void {}") ].
Proof. vm_compute. reflexivity. Qed.

(** Every kind of failure at once; the run still reaches its last line. *)
Example output_on_hostile :
  output fs_hostile =
    [ "Error removing /data/projects/zion/compile_test.zig: [Errno 13] Permission denied: '/data/projects/zion/compile_test.zig'";
      "Error removing /data/projects/zion/test_search.zig: [Errno 21] Is a directory: '/data/projects/zion/test_search.zig'";
      "File not found: /data/projects/zion/test_simple.zig";
      "Removed /data/projects/zion/test_build.sh";
      "File not found: /data/projects/zion/cleanup.py";
      "Error removing directory /data/projects/zion/test-project: [Errno 13] Permission denied: '/data/projects/zion/test-project'";
      "Cleanup complete" ]
  /\ status fs_hostile = 0%Z.
Proof. vm_compute. split; reflexivity. Qed.

(** A dangling link where a file is expected: the existence check fails on
    it, the run reports "not found" and the link stays where it is. *)
Example dangling_link_is_not_found :
  host_exists "/data/projects/zion/test_simple.zig" fs_hostile = false /\
  In "File not found: /data/projects/zion/test_simple.zig" (output fs_hostile) /\
  host_node "/data/projects/zion/test_simple.zig" (final_fs fs_hostile)
    = Some (Symlink "/nowhere").
Proof. vm_compute. intuition. Qed.

(** The first scenario of the specification, on its own target list. *)
Example scenario_two_files_and_directory :
  stdout
    (cleanup ["/tmp/a.txt"; "/tmp/b.txt"] "/tmp/proj"
       (World
          (MemFs (list_to_map [ ("/tmp/a.txt", File "a"); ("/tmp/proj", Dir);
                                ("/tmp/proj/x", File "") ]) ∅)
          [])).2 =
    [ "Removed /tmp/a.txt";
      "File not found: /tmp/b.txt";
      "Removed directory /tmp/proj";
      "Cleanup complete" ].
Proof. vm_compute. reflexivity. Qed.

(** The second scenario: the delete of the first file is refused, and the
    run goes on with the second file and the directory. *)
Example scenario_permission_error :
  stdout
    (cleanup ["/tmp/a.txt"; "/tmp/b.txt"] "/tmp/proj"
       (World
          (MemFs (list_to_map [ ("/tmp/a.txt", File "a"); ("/tmp/b.txt", File "b");
                                ("/tmp/proj", Dir) ])
                 {[ "/tmp/a.txt" ]})
          [])).2 =
    [ "Error removing /tmp/a.txt: [Errno 13] Permission denied: '/tmp/a.txt'";
      "Removed /tmp/b.txt";
      "Removed directory /tmp/proj";
      "Cleanup complete" ].
Proof. vm_compute. reflexivity. Qed.


(** C7 on the typical filesystem: its first run reports no failure. *)
Lemma second_run_finds_nothing_on_typical :
  Forall (fun l => is_error_line l = false) (output fs_typical) /\
  output (final_fs fs_typical) = map msg_not_found test_files ++ [msg_complete] /\
  Forall (fun l => is_error_line l = false) (output (final_fs fs_typical)) /\
  final_fs (final_fs fs_typical) = final_fs fs_typical /\
  status (final_fs fs_typical) = 0%Z.
Proof.
  assert (Hclean : Forall (fun l => is_error_line l = false) (output fs_typical)).
  { vm_compute. repeat constructor. }
  split; [ exact Hclean | ].
  exact (@Correct.second_run_finds_nothing
           memfs node mem_host mem_delete_laws fs_typical Hclean).
Defined.

(** C10 on the typical filesystem: the build file next to the targets. *)
Lemma run_frame_on_typical :
  host_node "/data/projects/zion/build.zig" (final_fs fs_typical) =
  host_node "/data/projects/zion/build.zig" fs_typical.
Proof.
  apply (@Correct.run_frame memfs node mem_host mem_frame_laws fs_typical).
  - vm_compute. intuition discriminate.
  - vm_compute. reflexivity.
Defined.

End Runs.

(* ===================================================================== *)
(** ** More of what a run does *)
(* ===================================================================== *)

Module Beyond.
Import Py Cleanup Trace.

Section AnyHost.
Context {FS Node : Type} `{!HostFS FS Node}.

(** *** Outcomes are functions of the filesystem *)

Lemma file_outcome_functional (P : string) (s : FS) (l l' : string) (s1 s1' : FS) :
  file_outcome P s l s1 -> file_outcome P s l' s1' -> l = l' /\ s1 = s1'.
Proof.
  intros [ Hex | t Hex Hrm | d t Hex Hrm ] [ Hex' | t' Hex' Hrm' | d' t' Hex' Hrm' ];
    try congruence; split; congruence.
Qed.

Lemma files_outcomes_functional (Ps : list string) (s : FS) (ls ls' : list string)
    (s1 s1' : FS) :
  files_outcomes Ps s ls s1 -> files_outcomes Ps s ls' s1' -> ls = ls' /\ s1 = s1'.
Proof.
  intros H. revert ls' s1'.
  induction H as [ s | P Ps s l t ls s2 Hl _ IH ]; intros ls' s1' H';
    inversion H' as [ | ? ? ? l' t' ls0 ? Hl' Hrest' ]; subst.
  - now split.
  - destruct (file_outcome_functional _ _ _ _ _ _ Hl Hl') as [ <- <- ].
    destruct (IH _ _ Hrest') as [ <- <- ]. now split.
Qed.

Lemma dir_outcome_functional (D : string) (s : FS) (dl dl' : list string) (s1 s1' : FS) :
  dir_outcome D s dl s1 -> dir_outcome D s dl' s1' -> dl = dl' /\ s1 = s1'.
Proof.
  intros [ Hex | t Hex Hrm | d t Hex Hrm ] [ Hex' | t' Hex' Hrm' | d' t' Hex' Hrm' ];
    try congruence; split; congruence.
Qed.

(** X1. When none of the five files and not the directory passes the
    existence check, the run deletes nothing: it returns normally with the
    very filesystem it was given, having printed the five "File not found"
    lines and the completion line.  This needs nothing of the host. *)
Theorem nothing_to_clean (s : FS) :
  Forall (fun P => host_exists P s = false) test_files ->
  host_exists test_project_dir s = false ->
  run s = (Returned tt, World s (map msg_not_found test_files ++ [msg_complete])).
Proof.
  intros Hfiles Hdir.
  destruct (Correct.run_outcomes s)
    as (ls & s1 & dl & s2 & Hls & Hdl & _ & Hrun).
  destruct (Correct.files_outcomes_all_absent _ _ _ _ Hfiles Hls) as [ -> -> ].
  destruct (Correct.dir_outcome_absent _ _ _ _ Hdir Hdl) as [ -> -> ].
  exact Hrun.
Qed.

(** *** The delete calls of a run *)

Lemma is_call_line_report (c : call) : is_call_line (report c) = true.
Proof. destruct c as [ p [ d | ] | p [ d | ] ]; reflexivity. Qed.

(** A file step on the recording host is the same step on the host
    underneath, and records the [os.remove] call it makes, if any. *)
Lemma traced_file_outcome (P : string) (t : traced FS) (l : string) (t' : traced FS) :
  file_outcome P t l t' ->
  file_outcome P (inner t) l (inner t') /\
  ((l = msg_not_found P /\ calls t' = calls t) \/
   exists r, calls t' = calls t ++ [Remove P r] /\ l = report (Remove P r)).
Proof.
  intros [ Hex | t1 Hex Hrm | d t1 Hex Hrm ]; simpl in *.
  - split; [ now apply FileNotFound | now left ].
  - unfold traced_call in Hrm.
    destruct (host_remove P (inner t)) as [ r s' ] eqn:Hinner.
    injection Hrm as -> <-. simpl.
    split; [ now apply FileRemoved | right ]. now exists None.
  - unfold traced_call in Hrm.
    destruct (host_remove P (inner t)) as [ r s' ] eqn:Hinner.
    injection Hrm as -> <-. simpl.
    split; [ now apply FileError | right ]. now exists (Some d).
Qed.

Lemma traced_files_outcomes (Ps : list string) (t : traced FS) (ls : list string)
    (t' : traced FS) :
  files_outcomes Ps t ls t' ->
  files_outcomes Ps (inner t) ls (inner t') /\
  exists cs,
    calls t' = calls t ++ cs /\
    Forall (fun c => is_remove c = true) cs /\
    sublist (map call_path cs) Ps /\
    map report cs = List.filter is_call_line ls.
Proof.
  induction 1 as [ t | P Ps t l t1 ls t2 Hl _ IH ].
  - split; [ constructor | ]. exists []. rewrite app_nil_r.
    repeat split; constructor.
  - destruct (traced_file_outcome _ _ _ _ Hl) as [ Hin Hcall ].
    destruct IH as [ Hrest (cs & Hcs & Hrem & Hsub & Hrep) ].
    split; [ econstructor; eassumption | ].
    destruct Hcall as [ [ -> Hsame ] | (r & Hone & ->) ].
    + exists cs. rewrite Hcs, Hsame. repeat split; try assumption.
      now apply sublist_cons.
    + exists (Remove P r :: cs). rewrite Hcs, Hone, <- app_assoc.
      repeat split.
      * now constructor.
      * simpl. now apply sublist_skip.
      * cbn [List.filter]. rewrite is_call_line_report. simpl. now rewrite Hrep.
Qed.

Lemma traced_dir_outcome (D : string) (t : traced FS) (dl : list string)
    (t' : traced FS) :
  dir_outcome D t dl t' ->
  dir_outcome D (inner t) dl (inner t') /\
  exists cs,
    calls t' = calls t ++ cs /\
    (cs = [] \/ exists r, cs = [Rmtree D r]) /\
    map report cs = List.filter is_call_line dl.
Proof.
  intros [ Hex | t1 Hex Hrm | d t1 Hex Hrm ]; simpl in *.
  - split; [ now apply DirAbsent | ]. exists []. rewrite app_nil_r.
    repeat split. now left.
  - unfold traced_call in Hrm.
    destruct (host_rmtree D (inner t)) as [ r s' ] eqn:Hinner.
    injection Hrm as -> <-. simpl.
    split; [ now apply DirRemoved | ]. exists [Rmtree D None].
    repeat split. right. now exists None.
  - unfold traced_call in Hrm.
    destruct (host_rmtree D (inner t)) as [ r s' ] eqn:Hinner.
    injection Hrm as -> <-. simpl.
    split; [ now apply DirError | ]. exists [Rmtree D (Some d)].
    repeat split. right. now exists (Some d).
Qed.

(** A run on the recording host, next to the same run on the host
    underneath. *)
Lemma traced_run (s : FS) :
  exists ls dl rs ds,
    output s = ls ++ dl ++ [msg_complete] /\
    output (Traced s []) = output s /\
    inner (final_fs (Traced s [])) = final_fs s /\
    calls_of_run s = rs ++ ds /\
    Forall (fun c => is_remove c = true) rs /\
    sublist (map call_path rs) test_files /\
    (ds = [] \/ exists r, ds = [Rmtree test_project_dir r]) /\
    map report rs = List.filter is_call_line ls /\
    map report ds = List.filter is_call_line dl.
Proof.
  destruct (Correct.run_outcomes (Traced s []))
    as (ls & t1 & dl & t2 & Hls & Hdl & _ & Hrun).
  destruct (traced_files_outcomes _ _ _ _ Hls)
    as [ Hls_in (rs & Hrs & Hrem & Hsub & Hrep) ].
  destruct (traced_dir_outcome _ _ _ _ Hdl)
    as [ Hdl_in (ds & Hds & Hone & Hrepd) ].
  destruct (Correct.run_outcomes s)
    as (ls' & s1 & dl' & s2 & Hls' & Hdl' & _ & Hrun').
  simpl in Hls_in, Hrs.
  destruct (files_outcomes_functional _ _ _ _ _ _ Hls_in Hls') as [ <- <- ].
  destruct (dir_outcome_functional _ _ _ _ _ _ Hdl_in Hdl') as [ <- <- ].
  exists ls, dl, rs, ds.
  unfold calls_of_run, output, final_fs. rewrite Hrun, Hrun'.
  cbn [fst snd fs stdout]. rewrite Hds, Hrs.
  repeat split; assumption.
Qed.

(** X2. The delete calls a run makes are, in this order: [os.remove] on
    paths of the list, each at most once and in list order, then at most
    one [shutil.rmtree], on the project directory.  The run makes no other
    delete call, and never more than six. *)
Theorem delete_calls_of_a_run (s : FS) :
  exists rs ds,
    calls_of_run s = rs ++ ds /\
    Forall (fun c => is_remove c = true) rs /\
    sublist (map call_path rs) test_files /\
    (ds = [] \/ exists r, ds = [Rmtree test_project_dir r]) /\
    length (calls_of_run s) <= 6.
Proof.
  destruct (traced_run s)
    as (ls & dl & rs & ds & _ & _ & _ & Hcalls & Hrem & Hsub & Hone & _ & _).
  exists rs, ds. repeat split; try assumption.
  rewrite Hcalls, length_app.
  apply sublist_length in Hsub. rewrite length_map in Hsub. simpl in Hsub.
  destruct Hone as [ -> | [ r -> ] ]; simpl; lia.
Qed.

(** X3. Recording the calls changes neither the transcript nor the
    filesystem the run leaves, and the transcript tells the calls as they
    were made: leaving out the "File not found" lines and the completion
    line, its lines are the reports of the delete calls, one per call and
    in the order of the calls, "Removed ..." for a call that returned and
    "Error removing ...: d" for a call that raised with text d. *)
Theorem transcript_reports_the_calls (s : FS) :
  output (Traced s []) = output s /\
  inner (final_fs (Traced s [])) = final_fs s /\
  map report (calls_of_run s) = List.filter is_call_line (output s).
Proof.
  destruct (traced_run s)
    as (ls & dl & rs & ds & Hout & Hsame & Hfs & Hcalls & _ & _ & _ & Hrs & Hds).
  repeat split; try assumption.
  rewrite Hcalls, Hout, map_app, !List.filter_app, Hrs, Hds. simpl.
  now rewrite app_nil_r.
Qed.

(** *** The directory, on hosts where deleting deletes *)

Section Deleting.
Context `{!DeleteLaws FS Node}.

(** X4. On a host where deleting deletes, the project directory is settled
    when the run is over, as the files are: the existence check fails on
    it, or it still passes and the transcript holds the error line of the
    directory. *)
Theorem directory_gone_or_reported (s : FS) :
  host_exists test_project_dir (final_fs s) = false \/
  (host_exists test_project_dir (final_fs s) = true /\
   exists d, In (msg_error_dir test_project_dir d) (output s)).
Proof.
  destruct (Correct.run_outcomes s)
    as (ls & s1 & dl & s2 & Hls & Hdl & _ & Hrun).
  unfold output, final_fs. rewrite Hrun. cbn [fst snd fs stdout].
  destruct Hdl as [ Hex | s2 Hex Hrm | d s2 Hex Hrm ].
  - now left.
  - left. eapply rmtree_gone; eassumption.
  - destruct (host_exists test_project_dir s2) eqn:Hex2; [ right | now left ].
    split; [ reflexivity | ]. exists d.
    apply in_or_app. right. now left.
Qed.

End Deleting.

(** *** Hosts where no delete call makes a path exist *)

(** A host where deleting deletes is one of them. *)
#[export] Instance delete_laws_create_nothing `{!DeleteLaws FS Node} :
  CreatesNothing FS Node.
Proof.
  split.
  - intros p q s r s'. apply remove_creates_nothing.
  - intros p q s r s'. apply rmtree_creates_nothing.
Qed.

Section NoCreation.
Context `{!CreatesNothing FS Node}.





(** A step on the recording host, seen from a path [q] that does not
    exist: the step makes no call on [q], and [q] still does not exist. *)
Lemma traced_file_outcome_absent (q P : string) (t : traced FS) (l : string)
    (t' : traced FS) :
  file_outcome P t l t' ->
  host_exists q (inner t) = false ->
  host_exists q (inner t') = false /\
  exists cs, calls t' = calls t ++ cs /\ Forall (fun c => call_path c <> q) cs.
Proof.
  intros [ Hex | t1 Hex Hrm | d t1 Hex Hrm ] Hq; simpl in *.
  - split; [ exact Hq | ]. exists []. now rewrite app_nil_r.
  - unfold traced_call in Hrm.
    destruct (host_remove P (inner t)) as [ r s' ] eqn:Hinner.
    injection Hrm as -> <-. simpl. split.
    + eapply remove_keeps_absent; eassumption.
    + exists [Remove P None]. split; [ reflexivity | ].
      repeat constructor. simpl. congruence.
  - unfold traced_call in Hrm.
    destruct (host_remove P (inner t)) as [ r s' ] eqn:Hinner.
    injection Hrm as -> <-. simpl. split.
    + eapply remove_keeps_absent; eassumption.
    + exists [Remove P (Some d)]. split; [ reflexivity | ].
      repeat constructor. simpl. congruence.
Qed.

Lemma traced_files_outcomes_absent (q : string) (Ps : list string) (t : traced FS)
    (ls : list string) (t' : traced FS) :
  files_outcomes Ps t ls t' ->
  host_exists q (inner t) = false ->
  host_exists q (inner t') = false /\
  exists cs, calls t' = calls t ++ cs /\ Forall (fun c => call_path c <> q) cs.
Proof.
  induction 1 as [ t | P Ps t l t1 ls t2 Hl _ IH ]; intros Hq.
  - split; [ exact Hq | ]. exists []. now rewrite app_nil_r.
  - destruct (traced_file_outcome_absent q _ _ _ _ Hl Hq)
      as [ Hq1 (cs1 & Hcs1 & Hnot1) ].
    destruct (IH Hq1) as [ Hq2 (cs2 & Hcs2 & Hnot2) ].
    split; [ exact Hq2 | ]. exists (cs1 ++ cs2).
    rewrite Hcs2, Hcs1, <- app_assoc. split; [ reflexivity | ].
    apply Forall_app. now split.
Qed.

Lemma traced_dir_outcome_absent (q D : string) (t : traced FS) (dl : list string)
    (t' : traced FS) :
  dir_outcome D t dl t' ->
  host_exists q (inner t) = false ->
  exists cs, calls t' = calls t ++ cs /\ Forall (fun c => call_path c <> q) cs.
Proof.
  intros [ Hex | t1 Hex Hrm | d t1 Hex Hrm ] Hq; simpl in *.
  - exists []. now rewrite app_nil_r.
  - unfold traced_call in Hrm.
    destruct (host_rmtree D (inner t)) as [ r s' ] eqn:Hinner.
    injection Hrm as -> <-. simpl.
    exists [Rmtree D None]. split; [ reflexivity | ].
    repeat constructor. simpl. congruence.
  - unfold traced_call in Hrm.
    destruct (host_rmtree D (inner t)) as [ r s' ] eqn:Hinner.
    injection Hrm as -> <-. simpl.
    exists [Rmtree D (Some d)]. split; [ reflexivity | ].
    repeat constructor. simpl. congruence.
Qed.

(** X7. On a host where no delete call makes an absent path exist, a path
    that does not exist when the run starts is never handed to a delete
    call: the existence checks keep [os.remove] and [shutil.rmtree] away
    from it, also after the deletes that came before.  Nothing is assumed
    of what the delete calls delete. *)
Theorem no_delete_call_on_absent_path (s : FS) (q : string) :
  host_exists q s = false ->
  Forall (fun c => call_path c <> q) (calls_of_run s).
Proof.
  intros Hq.
  destruct (Correct.run_outcomes (Traced s []))
    as (ls & t1 & dl & t2 & Hls & Hdl & _ & Hrun).
  destruct (traced_files_outcomes_absent q _ _ _ _ Hls Hq)
    as [ Hq1 (cs1 & Hcs1 & Hnot1) ].
  destruct (traced_dir_outcome_absent q _ _ _ _ Hdl Hq1)
    as (cs2 & Hcs2 & Hnot2).
  unfold calls_of_run, final_fs. rewrite Hrun. cbn [fst snd fs stdout].
  rewrite Hcs2, Hcs1. simpl.
  apply Forall_app. now split.
Qed.

End NoCreation.

(** *** The two halves of the run, on hosts where a delete touches its
    target only *)

(** None of the five files is the project directory or lies below it. *)
Lemma test_files_outside_dir :
  Forall (fun P => in_subtree test_project_dir P = false) test_files.
Proof. repeat constructor. Qed.

Section Frame.
Context `{!FrameLaws FS Node}.

(** X6. On a host where a delete call touches its target only, the two
    halves of the run keep out of each other's way: the file loop leaves
    every entry of the project directory's subtree as it was, and the
    directory statement leaves the entries at the five file paths as the
    loop left them. *)
Theorem file_loop_and_directory_apart (s : FS) (q : string) :
  in_subtree test_project_dir q = true ->
  host_node q (fs (after_files s)) = host_node q s /\
  Forall (fun P => host_node P (final_fs s) = host_node P (fs (after_files s)))
         test_files.
Proof.
  intros Hq.
  destruct (Correct.run_outcomes s)
    as (ls & s1 & dl & s2 & Hls & Hdl & Hafter & Hrun).
  unfold final_fs. rewrite Hrun, Hafter. cbn [fst snd fs stdout].
  split.
  - eapply Correct.files_outcomes_frame; [ eassumption | ].
    intros Hin.
    pose proof test_files_outside_dir as Hout.
    rewrite List.Forall_forall in Hout.
    specialize (Hout q Hin). congruence.
  - eapply Forall_impl; [ exact test_files_outside_dir | ].
    intros P HP. eapply Correct.dir_outcome_frame; eassumption.
Qed.

End Frame.

End AnyHost.
End Beyond.

(* ===================================================================== *)
(** ** More runs on the host in memory *)
(* ===================================================================== *)

Module BeyondRuns.
Import Py Cleanup MemFS MemFSLaws Trace.

(** The delete calls on the hostile filesystem: the dangling link and the
    missing script are not passed to [os.remove]. *)
Example calls_on_hostile :
  calls_of_run fs_hostile =
    [ Remove "/data/projects/zion/compile_test.zig"
        (Some "[Errno 13] Permission denied: '/data/projects/zion/compile_test.zig'");
      Remove "/data/projects/zion/test_search.zig"
        (Some "[Errno 21] Is a directory: '/data/projects/zion/test_search.zig'");
      Remove "/data/projects/zion/test_build.sh" None;
      Rmtree "/data/projects/zion/test-project"
        (Some "[Errno 13] Permission denied: '/data/projects/zion/test-project'") ].
Proof. vm_compute. reflexivity. Qed.

Example calls_on_empty : calls_of_run fs_empty = [].
Proof. vm_compute. reflexivity. Qed.

(** X1 on a filesystem that holds a file next to the targets and a dangling
    link at one of them. *)
Lemma nothing_to_clean_beside_targets :
  let s := MemFs (list_to_map
                    [ ("/data/projects/zion/build.zig", File "pub fn build() void {}");
                      ("/data/projects/zion/test_build.sh", Symlink "/nowhere") ]) ∅ in
  run s = (Returned tt, World s (map msg_not_found test_files ++ [msg_complete])).
Proof.
  intros s. apply Beyond.nothing_to_clean.
  - vm_compute. repeat constructor.
  - vm_compute. reflexivity.
Defined.

(** X4 on the hostile filesystem, where [rmtree] is refused. *)
Lemma directory_gone_or_reported_on_hostile :
  host_exists test_project_dir (final_fs fs_hostile) = false \/
  (host_exists test_project_dir (final_fs fs_hostile) = true /\
   exists d, In (msg_error_dir test_project_dir d) (output fs_hostile)).
Proof.
  exact (@Beyond.directory_gone_or_reported
           memfs node mem_host mem_delete_laws fs_hostile).
Defined.


(** X6 on the typical filesystem, at a file deep in the project directory. *)
Lemma file_loop_and_directory_apart_on_typical :
  host_node "/data/projects/zion/test-project/src/main.zig"
            (fs (after_files fs_typical))
    = host_node "/data/projects/zion/test-project/src/main.zig" fs_typical /\
  Forall (fun P => host_node P (final_fs fs_typical)
                   = host_node P (fs (after_files fs_typical)))
         test_files.
Proof.
  apply (@Beyond.file_loop_and_directory_apart
           memfs node mem_host mem_frame_laws fs_typical).
  vm_compute. reflexivity.
Defined.

(** X7 on the hostile filesystem: the script's own path is not there. *)
Lemma no_delete_call_on_absent_path_on_hostile :
  Forall (fun c => call_path c <> "/data/projects/zion/cleanup.py")
         (calls_of_run fs_hostile).
Proof.
  apply (@Beyond.no_delete_call_on_absent_path memfs node mem_host
           (@Beyond.delete_laws_create_nothing memfs node mem_host mem_delete_laws)).
  vm_compute. reflexivity.
Defined.

End BeyondRuns.

(* ===================================================================== *)
(** ** Where the specification says more than the script does *)
(* ===================================================================== *)

Module Refuted.
Import Py Cleanup MemFS.


(** C7, as stated, fails.  Here a directory sits where the second file is
    expected and nothing is locked: no delete is refused for lack of
    permission, and nothing recreates a target between the runs.  The first
    run fails on the directory with "Is a directory"; the second run, from
    the filesystem the first left, fails on it again, so its transcript
    holds an error line and is not the five "File not found" lines. *)
Lemma second_run_repeats_the_error :
  locked fs_directory_in_the_way = ∅ /\
  output fs_directory_in_the_way =
    [ "Removed /data/projects/zion/compile_test.zig";
      "Error removing /data/projects/zion/test_search.zig: [Errno 21] Is a directory: '/data/projects/zion/test_search.zig'";
      "File not found: /data/projects/zion/test_simple.zig";
      "File not found: /data/projects/zion/test_build.sh";
      "File not found: /data/projects/zion/cleanup.py";
      "Removed directory /data/projects/zion/test-project";
      "Cleanup complete" ] /\
  output (final_fs fs_directory_in_the_way) =
    [ "File not found: /data/projects/zion/compile_test.zig";
      "Error removing /data/projects/zion/test_search.zig: [Errno 21] Is a directory: '/data/projects/zion/test_search.zig'";
      "File not found: /data/projects/zion/test_simple.zig";
      "File not found: /data/projects/zion/test_build.sh";
      "File not found: /data/projects/zion/cleanup.py";
      "Cleanup complete" ] /\
  ~ Forall (fun l => is_error_line l = false)
           (output (final_fs fs_directory_in_the_way)) /\
  output (final_fs fs_directory_in_the_way)
    <> map msg_not_found test_files ++ [msg_complete].
Proof.
  split; [ | split; [ | split; [ | split ] ] ].
  - reflexivity.
  - vm_compute. reflexivity.
  - vm_compute. reflexivity.
  - intros Hclean. rewrite List.Forall_forall in Hclean.
    specialize (Hclean
      "Error removing /data/projects/zion/test_search.zig: [Errno 21] Is a directory: '/data/projects/zion/test_search.zig'").
    assert (Hin : In
      "Error removing /data/projects/zion/test_search.zig: [Errno 21] Is a directory: '/data/projects/zion/test_search.zig'"
      (output (final_fs fs_directory_in_the_way))).
    { vm_compute. auto. }
    specialize (Hclean Hin). vm_compute in Hclean. discriminate Hclean.
  - vm_compute. discriminate.
Qed.

End Refuted.
